(** * The checkout payment-method selector

    A shallow embedding of [PaymentMethodComponent] and
    [mapToWithCheckoutPaymentMethodProps] (the payment-method dispatcher of
    the checkout UI), and the properties of its selection policy. *)

From Stdlib Require Import String Ascii List Bool NArith.
Import ListNotations.

Open Scope string_scope.
Open Scope bool_scope.

(** ** The imported enums

    [./PaymentMethodId], [./PaymentMethodProviderType] and
    [./PaymentMethodType] are imported by the selector; only the members it
    reads are listed.  Their string values are not part of the selector, so
    they are parameters of the development. *)

Record PaymentMethodIdEnum : Set := {
  Afterpay : string;
  AmazonPay : string;
  Braintree : string;
  BraintreeVenmo : string;
  CCAvenueMars : string;
  ChasePay : string;
  Checkoutcom : string;
  Clearpay : string;
  Humm : string;
  Laybuy : string;
  Masterpass : string;
  Moneris : string;
  Opy : string;
  PaypalCommerceCreditCards : string;
  PaypalExpress : string;
  PaypalPaymentsPro : string;
  Quadpay : string;
  Sezzle : string;
  SquareV2 : string;
  StripeV3 : string;
  StripeUPE : string;
  WorldpayAccess : string;
  Zip : string
}.

Record PaymentMethodProviderTypeEnum : Set := {
  Api : string;
  Hosted : string;
  PPSDK : string
}.

Record PaymentMethodTypeEnum : Set := {
  CreditCard : string;
  Paypal : string;
  PaypalCredit : string
}.

Class Enums : Set := {
  PaymentMethodId : PaymentMethodIdEnum;
  PaymentMethodProviderType : PaymentMethodProviderTypeEnum;
  PaymentMethodType : PaymentMethodTypeEnum
}.

(** ** The checkout SDK

    The types the selector only passes along: option and result objects of
    the lifecycle calls, promises, the effect of a [void] callback, and the
    fields of a payment method that the selector never reads. *)

Class CheckoutSdk : Type := {
  CheckoutSelectors : Type;
  CustomerInitializeOptions : Type;
  CustomerRequestOptions : Type;
  PaymentInitializeOptions : Type;
  PaymentRequestOptions : Type;
  Error : Type;
  Promise : Type -> Type;
  Void : Type;
  PaymentMethodRest : Type
}.

(** The payment-method descriptor.  [gateway] is optional: [None] is the
    absent ([undefined]) gateway. *)
Module PaymentMethod.
Record t `{CheckoutSdk} : Type := {
  id : string;
  gateway : option string;
  type : string;
  method : string;
  rest : PaymentMethodRest
}.
End PaymentMethod.

(** The UI components the selector imports. *)
Inductive Component : Set :=
  | AmazonPayV2PaymentMethod
  | BraintreeCreditCardPaymentMethod
  | CCAvenueMarsPaymentMethod
  | ChasePayPaymentMethod
  | HostedCreditCardPaymentMethod
  | HostedPaymentMethod
  | MasterpassPaymentMethod
  | MonerisPaymentMethod
  | OpyPaymentMethod
  | PaypalCommerceCreditCardPaymentMethod
  | PaypalExpressPaymentMethod
  | PaypalPaymentsProPaymentMethod
  | PPSDKPaymentMethod
  | SquarePaymentMethod
  | StripePaymentMethod
  | StripeUPEPaymentMethod
  | WorldpayCreditCardPaymentMethod.

(** A React element: the component to render and the props it receives. *)
Module React.
Record Element (P : Type) : Type := createElement {
  type : Component;
  props : P
}.
Arguments createElement {P} _ _.
Arguments type {P} _.
Arguments props {P} _.
End React.

(** ** Props *)

Record PaymentMethodProps `{CheckoutSdk} : Type := {
  method : PaymentMethod.t;
  isEmbedded : option bool;
  isUsingMultiShipping : option bool;
  onUnhandledError : option (Error -> Void);
  submitForm : option (unit -> Void)
}.

Record WithCheckoutPaymentMethodProps `{CheckoutSdk} : Type := {
  isInitializing : bool;
  deinitializeCustomer : CustomerRequestOptions -> Promise CheckoutSelectors;
  deinitializePayment : PaymentRequestOptions -> Promise CheckoutSelectors;
  initializeCustomer : CustomerInitializeOptions -> Promise CheckoutSelectors;
  initializePayment : PaymentInitializeOptions -> Promise CheckoutSelectors
}.

(** [PaymentMethodProps & WithCheckoutPaymentMethodProps]: an object with
    the fields of both interfaces. *)
Record Props `{CheckoutSdk} : Type := {
  ownProps : PaymentMethodProps;
  withCheckoutProps : WithCheckoutPaymentMethodProps
}.

(** The checkout context handed to the mapper. *)
Module CheckoutService.
Record t `{CheckoutSdk} : Type := {
  deinitializeCustomer : CustomerRequestOptions -> Promise CheckoutSelectors;
  deinitializePayment : PaymentRequestOptions -> Promise CheckoutSelectors;
  initializeCustomer : CustomerInitializeOptions -> Promise CheckoutSelectors;
  initializePayment : PaymentInitializeOptions -> Promise CheckoutSelectors
}.
End CheckoutService.

Record CheckoutStatuses : Set := {
  isInitializingPayment : string -> bool
}.

Record CheckoutState : Set := {
  statuses : CheckoutStatuses
}.

Record CheckoutContextProps `{CheckoutSdk} : Type := {
  checkoutService : CheckoutService.t;
  checkoutState : CheckoutState
}.

(** ** Strict equality

    [a === b] on two strings, and on an optional string against a string:
    an absent value is equal to no string. *)

Definition strictEq (a b : string) : bool := String.eqb a b.

Definition strictEqOpt (a : option string) (b : string) : bool :=
  match a with
  | Some s => String.eqb s b
  | None => false
  end.

Infix "===" := strictEq (at level 70, no associativity).
Infix "?===" := strictEqOpt (at level 70, no associativity).
Notation "a !== b" := (negb (strictEq a b)) (at level 70, no associativity).

(** ** The selector *)

Section Selector.
Context `{sdk : CheckoutSdk} `{enums : Enums}.

Notation "'<' C '{...' p '}' '/>'" := (Some (React.createElement C p))
  (at level 0, C at level 0, p at level 0).

Definition PaymentMethodComponent (props : Props)
  : option (React.Element Props) :=
  let method := props.(ownProps).(method) in
  if method.(PaymentMethod.type) === PaymentMethodProviderType.(PPSDK) then
    < PPSDKPaymentMethod {... props } />
  else if method.(PaymentMethod.id) === PaymentMethodId.(SquareV2) then
    < SquarePaymentMethod {... props } />
  else if method.(PaymentMethod.gateway) ?=== PaymentMethodId.(StripeV3) then
    < StripePaymentMethod {... props } />
  else if method.(PaymentMethod.gateway) ?=== PaymentMethodId.(StripeUPE) then
    < StripeUPEPaymentMethod {... props } />
  else if method.(PaymentMethod.id) === PaymentMethodId.(AmazonPay) then
    < AmazonPayV2PaymentMethod {... props } />
  else if method.(PaymentMethod.id) === PaymentMethodId.(CCAvenueMars) then
    < CCAvenueMarsPaymentMethod {... props } />
  else if method.(PaymentMethod.id) === PaymentMethodId.(ChasePay) then
    < ChasePayPaymentMethod {... props } />
  else if method.(PaymentMethod.gateway) ?=== PaymentMethodId.(Checkoutcom) then
    if (method.(PaymentMethod.id) === "credit_card")
       || (method.(PaymentMethod.id) === "card") then
      < HostedCreditCardPaymentMethod {... props } />
    else
      < HostedPaymentMethod {... props } />
  else if method.(PaymentMethod.id) === PaymentMethodId.(Masterpass) then
    < MasterpassPaymentMethod {... props } />
  else if method.(PaymentMethod.id) === PaymentMethodId.(Braintree) then
    < BraintreeCreditCardPaymentMethod {... props } />
  else if method.(PaymentMethod.id) === PaymentMethodId.(PaypalCommerceCreditCards) then
    < PaypalCommerceCreditCardPaymentMethod {... props } />
  else if method.(PaymentMethod.id) === PaymentMethodId.(PaypalExpress) then
    < PaypalExpressPaymentMethod {... props } />
  else if (method.(PaymentMethod.type) !== PaymentMethodProviderType.(Hosted))
          && (method.(PaymentMethod.id) === PaymentMethodId.(PaypalPaymentsPro)) then
    < PaypalPaymentsProPaymentMethod {... props } />
  else if method.(PaymentMethod.id) === PaymentMethodId.(Moneris) then
    < MonerisPaymentMethod {... props } />
  else if method.(PaymentMethod.id) === PaymentMethodId.(WorldpayAccess) then
    < WorldpayCreditCardPaymentMethod {... props } />
  else if (method.(PaymentMethod.gateway) ?=== PaymentMethodId.(Afterpay))
          || (method.(PaymentMethod.gateway) ?=== PaymentMethodId.(Clearpay))
          || (method.(PaymentMethod.id) === PaymentMethodId.(BraintreeVenmo))
          || (method.(PaymentMethod.id) === PaymentMethodId.(Humm))
          || (method.(PaymentMethod.id) === PaymentMethodId.(Laybuy))
          || (method.(PaymentMethod.id) === PaymentMethodId.(Quadpay))
          || (method.(PaymentMethod.id) === PaymentMethodId.(Sezzle))
          || (method.(PaymentMethod.id) === PaymentMethodId.(Zip))
          || (method.(PaymentMethod.method) === PaymentMethodType.(Paypal))
          || (method.(PaymentMethod.method) === PaymentMethodType.(PaypalCredit))
          || (method.(PaymentMethod.type) === PaymentMethodProviderType.(Hosted)) then
    < HostedPaymentMethod {... props } />
  else if method.(PaymentMethod.id) === PaymentMethodId.(Opy) then
    < OpyPaymentMethod {... props } />
  else if (method.(PaymentMethod.method) === PaymentMethodType.(CreditCard))
          || (method.(PaymentMethod.type) === PaymentMethodProviderType.(Api)) then
    < HostedCreditCardPaymentMethod {... props } />
  else
    None.

Definition mapToWithCheckoutPaymentMethodProps
    (context : CheckoutContextProps) (own : PaymentMethodProps)
  : WithCheckoutPaymentMethodProps :=
  let checkoutService := context.(checkoutService) in
  let checkoutState := context.(checkoutState) in
  let method := own.(method) in
  let isInitializingPayment := checkoutState.(statuses).(isInitializingPayment) in
  {| deinitializeCustomer := checkoutService.(CheckoutService.deinitializeCustomer);
     deinitializePayment := checkoutService.(CheckoutService.deinitializePayment);
     initializeCustomer := checkoutService.(CheckoutService.initializeCustomer);
     initializePayment := checkoutService.(CheckoutService.initializePayment);
     isInitializing := isInitializingPayment method.(PaymentMethod.id) |}.

(** The component reference the selector picks, if any. *)
Definition selected (props : Props) : option Component :=
  option_map React.type (PaymentMethodComponent props).

End Selector.

(** ** The selection policy as an ordered registry

    The policy written the way the design describes it: an ordered list of
    (predicate over the descriptor, component) pairs, read first match
    wins.  It is a second definition, compared below with the conditional
    chain of [PaymentMethodComponent]. *)

Inductive Test : Set :=
  | TypeIs (s : string)
  | IdIs (s : string)
  | GatewayIs (s : string)
  | MethodIs (s : string)
  | Not (t : Test)
  | Both (t u : Test)
  | Either (t u : Test).

(** [t || t1 || ... || tn], associated to the left as the source is. *)
Definition AnyOf (t : Test) (ts : list Test) : Test :=
  fold_left Either ts t.

Section Registry.
Context `{sdk : CheckoutSdk} `{enums : Enums}.

Fixpoint holds (t : Test) (m : PaymentMethod.t) : bool :=
  match t with
  | TypeIs s => m.(PaymentMethod.type) === s
  | IdIs s => m.(PaymentMethod.id) === s
  | GatewayIs s => m.(PaymentMethod.gateway) ?=== s
  | MethodIs s => m.(PaymentMethod.method) === s
  | Not t => negb (holds t m)
  | Both t u => holds t m && holds u m
  | Either t u => holds t m || holds u m
  end.

(** A rule whose test is an id comparison, alone or under a guard. *)
Definition isIdRule (t : Test) : bool :=
  match t with
  | IdIs _ => true
  | Both _ (IdIs _) => true
  | _ => false
  end.

Definition Rule : Set := (Test * Component)%type.

Fixpoint firstMatch (rules : list Rule) (m : PaymentMethod.t)
  : option Component :=
  match rules with
  | [] => None
  | (t, c) :: rules => if holds t m then Some c else firstMatch rules m
  end.

(** Rule 1: the special-protocol provider type. *)
Definition rule1 : list Rule :=
  [ (TypeIs PaymentMethodProviderType.(PPSDK), PPSDKPaymentMethod) ].

(** Rule 2, the part tested before the Checkoutcom gateway. *)
Definition rule2BeforeCheckoutcom : list Rule :=
  [ (IdIs PaymentMethodId.(SquareV2), SquarePaymentMethod);
    (GatewayIs PaymentMethodId.(StripeV3), StripePaymentMethod);
    (GatewayIs PaymentMethodId.(StripeUPE), StripeUPEPaymentMethod);
    (IdIs PaymentMethodId.(AmazonPay), AmazonPayV2PaymentMethod);
    (IdIs PaymentMethodId.(CCAvenueMars), CCAvenueMarsPaymentMethod);
    (IdIs PaymentMethodId.(ChasePay), ChasePayPaymentMethod) ].

(** Rule 3: the nested decision of the Checkoutcom gateway. *)
Definition rule3 : list Rule :=
  [ (Both (GatewayIs PaymentMethodId.(Checkoutcom))
          (Either (IdIs "credit_card") (IdIs "card")),
     HostedCreditCardPaymentMethod);
    (GatewayIs PaymentMethodId.(Checkoutcom), HostedPaymentMethod) ].

(** Rule 2, the part tested after the Checkoutcom gateway. *)
Definition rule2AfterCheckoutcom : list Rule :=
  [ (IdIs PaymentMethodId.(Masterpass), MasterpassPaymentMethod);
    (IdIs PaymentMethodId.(Braintree), BraintreeCreditCardPaymentMethod);
    (IdIs PaymentMethodId.(PaypalCommerceCreditCards),
     PaypalCommerceCreditCardPaymentMethod);
    (IdIs PaymentMethodId.(PaypalExpress), PaypalExpressPaymentMethod);
    (Both (Not (TypeIs PaymentMethodProviderType.(Hosted)))
          (IdIs PaymentMethodId.(PaypalPaymentsPro)),
     PaypalPaymentsProPaymentMethod);
    (IdIs PaymentMethodId.(Moneris), MonerisPaymentMethod);
    (IdIs PaymentMethodId.(WorldpayAccess), WorldpayCreditCardPaymentMethod) ].

(** Rule 4: the disjunction that selects the generic hosted widget. *)
Definition rule4 : list Rule :=
  [ (AnyOf (GatewayIs PaymentMethodId.(Afterpay))
           [ GatewayIs PaymentMethodId.(Clearpay);
             IdIs PaymentMethodId.(BraintreeVenmo);
             IdIs PaymentMethodId.(Humm);
             IdIs PaymentMethodId.(Laybuy);
             IdIs PaymentMethodId.(Quadpay);
             IdIs PaymentMethodId.(Sezzle);
             IdIs PaymentMethodId.(Zip);
             MethodIs PaymentMethodType.(Paypal);
             MethodIs PaymentMethodType.(PaypalCredit);
             TypeIs PaymentMethodProviderType.(Hosted) ],
     HostedPaymentMethod) ].

(** Rule 5: one more specific identifier. *)
Definition rule5 : list Rule :=
  [ (IdIs PaymentMethodId.(Opy), OpyPaymentMethod) ].

(** Rule 6: the fallback. *)
Definition rule6 : list Rule :=
  [ (Either (MethodIs PaymentMethodType.(CreditCard))
            (TypeIs PaymentMethodProviderType.(Api)),
     HostedCreditCardPaymentMethod) ].

Definition registry : list Rule :=
  rule1 ++ rule2BeforeCheckoutcom ++ rule3 ++ rule2AfterCheckoutcom
        ++ rule4 ++ rule5 ++ rule6.

(** The identifiers named by rule 2, each with its dedicated widget. *)
Definition rule2Widgets : list (string * Component) :=
  [ (PaymentMethodId.(SquareV2), SquarePaymentMethod);
    (PaymentMethodId.(StripeV3), StripePaymentMethod);
    (PaymentMethodId.(StripeUPE), StripeUPEPaymentMethod);
    (PaymentMethodId.(AmazonPay), AmazonPayV2PaymentMethod);
    (PaymentMethodId.(CCAvenueMars), CCAvenueMarsPaymentMethod);
    (PaymentMethodId.(ChasePay), ChasePayPaymentMethod);
    (PaymentMethodId.(Masterpass), MasterpassPaymentMethod);
    (PaymentMethodId.(Braintree), BraintreeCreditCardPaymentMethod);
    (PaymentMethodId.(PaypalCommerceCreditCards),
     PaypalCommerceCreditCardPaymentMethod);
    (PaymentMethodId.(PaypalExpress), PaypalExpressPaymentMethod);
    (PaymentMethodId.(PaypalPaymentsPro), PaypalPaymentsProPaymentMethod);
    (PaymentMethodId.(Moneris), MonerisPaymentMethod);
    (PaymentMethodId.(WorldpayAccess), WorldpayCreditCardPaymentMethod) ].

(** The ids and gateways that rules 2 and 3 compare against. *)
Definition rule2Ids : list string :=
  [ PaymentMethodId.(SquareV2); PaymentMethodId.(AmazonPay);
    PaymentMethodId.(CCAvenueMars); PaymentMethodId.(ChasePay);
    PaymentMethodId.(Masterpass); PaymentMethodId.(Braintree);
    PaymentMethodId.(PaypalCommerceCreditCards);
    PaymentMethodId.(PaypalExpress); PaymentMethodId.(PaypalPaymentsPro);
    PaymentMethodId.(Moneris); PaymentMethodId.(WorldpayAccess) ].

Definition rule23Gateways : list string :=
  [ PaymentMethodId.(StripeV3); PaymentMethodId.(StripeUPE);
    PaymentMethodId.(Checkoutcom) ].

(** The ids and gateways that rules 4 and 5 compare against. *)
Definition rule4Gateways : list string :=
  [ PaymentMethodId.(Afterpay); PaymentMethodId.(Clearpay) ].

Definition rule45Ids : list string :=
  [ PaymentMethodId.(BraintreeVenmo); PaymentMethodId.(Humm);
    PaymentMethodId.(Laybuy); PaymentMethodId.(Quadpay);
    PaymentMethodId.(Sezzle); PaymentMethodId.(Zip);
    PaymentMethodId.(Opy) ].

(** The descriptor of a props object, and "the gateway is none of". *)
Definition descriptor (props : Props) : PaymentMethod.t :=
  props.(ownProps).(method).

Definition gatewayNotIn (m : PaymentMethod.t) (l : list string) : Prop :=
  forall g, m.(PaymentMethod.gateway) = Some g -> ~ In g l.

(** Every component the selector can render. *)
Definition components : list Component :=
  [ AmazonPayV2PaymentMethod; BraintreeCreditCardPaymentMethod;
    CCAvenueMarsPaymentMethod; ChasePayPaymentMethod;
    HostedCreditCardPaymentMethod; HostedPaymentMethod;
    MasterpassPaymentMethod; MonerisPaymentMethod; OpyPaymentMethod;
    PaypalCommerceCreditCardPaymentMethod; PaypalExpressPaymentMethod;
    PaypalPaymentsProPaymentMethod; PPSDKPaymentMethod; SquarePaymentMethod;
    StripePaymentMethod; StripeUPEPaymentMethod;
    WorldpayCreditCardPaymentMethod ].

End Registry.

(** ** The identifiers behind the dedicated widgets

    Which field each dedicated widget is keyed on in the chain, and the
    identifiers that the generic rules compare against. *)

Section Dedicated.
Context `{enums : Enums}.

(** The widgets the chain renders on an id comparison. *)
Definition dedicatedById : list (string * Component) :=
  [ (PaymentMethodId.(SquareV2), SquarePaymentMethod);
    (PaymentMethodId.(AmazonPay), AmazonPayV2PaymentMethod);
    (PaymentMethodId.(CCAvenueMars), CCAvenueMarsPaymentMethod);
    (PaymentMethodId.(ChasePay), ChasePayPaymentMethod);
    (PaymentMethodId.(Masterpass), MasterpassPaymentMethod);
    (PaymentMethodId.(Braintree), BraintreeCreditCardPaymentMethod);
    (PaymentMethodId.(PaypalCommerceCreditCards),
     PaypalCommerceCreditCardPaymentMethod);
    (PaymentMethodId.(PaypalExpress), PaypalExpressPaymentMethod);
    (PaymentMethodId.(PaypalPaymentsPro), PaypalPaymentsProPaymentMethod);
    (PaymentMethodId.(Moneris), MonerisPaymentMethod);
    (PaymentMethodId.(WorldpayAccess), WorldpayCreditCardPaymentMethod);
    (PaymentMethodId.(Opy), OpyPaymentMethod) ].

(** The widgets the chain renders on a gateway comparison. *)
Definition dedicatedByGateway : list (string * Component) :=
  [ (PaymentMethodId.(StripeV3), StripePaymentMethod);
    (PaymentMethodId.(StripeUPE), StripeUPEPaymentMethod) ].

(** The rule-2 ids whose test carries no guard: all but PaypalPaymentsPro. *)
Definition rule2UnguardedIds : list string :=
  [ PaymentMethodId.(SquareV2); PaymentMethodId.(AmazonPay);
    PaymentMethodId.(CCAvenueMars); PaymentMethodId.(ChasePay);
    PaymentMethodId.(Masterpass); PaymentMethodId.(Braintree);
    PaymentMethodId.(PaypalCommerceCreditCards);
    PaymentMethodId.(PaypalExpress);
    PaymentMethodId.(Moneris); PaymentMethodId.(WorldpayAccess) ].

(** The ids of the rule-4 disjunction. *)
Definition rule4Ids : list string :=
  [ PaymentMethodId.(BraintreeVenmo); PaymentMethodId.(Humm);
    PaymentMethodId.(Laybuy); PaymentMethodId.(Quadpay);
    PaymentMethodId.(Sezzle); PaymentMethodId.(Zip) ].

(** Every gateway the chain compares against. *)
Definition namedGateways : list string :=
  [ PaymentMethodId.(StripeV3); PaymentMethodId.(StripeUPE);
    PaymentMethodId.(Checkoutcom); PaymentMethodId.(Afterpay);
    PaymentMethodId.(Clearpay) ].

End Dedicated.

(** ** The transform pattern of the Jest configurations

    Both package configurations key their [ts-jest] transform on the
    pattern ['^.+\\.[tj]sx?$'].  A path is a sequence of UTF-16 code
    units, as a JavaScript string is. *)

Module JestTransform.

Definition codeUnits (s : string) : list N :=
  map N_of_ascii (list_ascii_of_string s).

(** The code units that [.] does not match. *)
Definition isLineTerminator (c : N) : bool :=
  (c =? 10)%N || (c =? 13)%N || (c =? 8232)%N || (c =? 8233)%N.

Inductive RegExp : Set :=
  | Never
  | Eps
  | Dot
  | Chr (c : N)
  | Class (cs : list N)
  | Cat (r s : RegExp)
  | Or (r s : RegExp)
  | Star (r : RegExp).

Definition Plus (r : RegExp) : RegExp := Cat r (Star r).
Definition Opt (r : RegExp) : RegExp := Or r Eps.

Fixpoint nullable (r : RegExp) : bool :=
  match r with
  | Never | Dot | Chr _ | Class _ => false
  | Eps | Star _ => true
  | Cat r s => nullable r && nullable s
  | Or r s => nullable r || nullable s
  end.

(** What is left of [r] after reading the code unit [c]. *)
Fixpoint deriv (c : N) (r : RegExp) : RegExp :=
  match r with
  | Never | Eps => Never
  | Dot => if isLineTerminator c then Never else Eps
  | Chr d => if (c =? d)%N then Eps else Never
  | Class cs => if existsb (N.eqb c) cs then Eps else Never
  | Cat r s =>
      if nullable r then Or (Cat (deriv c r) s) (deriv c s)
      else Cat (deriv c r) s
  | Or r s => Or (deriv c r) (deriv c s)
  | Star r => Cat (deriv c r) (Star r)
  end.

(** A match of the whole input, which is what a pattern anchored by [^]
    and [$] asks for. *)
Definition fullMatch (r : RegExp) (input : list N) : bool :=
  nullable (fold_left (fun r c => deriv c r) input r).

(** [.+\.[tj]sx?] between the anchors. *)
Definition transformPattern : RegExp :=
  Cat (Plus Dot)
      (Cat (Chr (N_of_ascii "."))
           (Cat (Class [N_of_ascii "t"; N_of_ascii "j"])
                (Cat (Chr (N_of_ascii "s"))
                     (Opt (Chr (N_of_ascii "x")))))).

Definition test (path : list N) : bool := fullMatch transformPattern path.

(** The code units [.] matches, and the extensions of script files. *)
Definition dotMatches (c : N) : Prop := isLineTerminator c = false.

Definition scriptExtensions : list (list N) :=
  [ codeUnits "ts"; codeUnits "tsx"; codeUnits "js"; codeUnits "jsx" ].

(** The inputs a pattern matches. *)
Inductive Matches : RegExp -> list N -> Prop :=
  | MEps : Matches Eps []
  | MDot c : isLineTerminator c = false -> Matches Dot [c]
  | MChr c : Matches (Chr c) [c]
  | MClass c cs : In c cs -> Matches (Class cs) [c]
  | MCat r s u v : Matches r u -> Matches s v -> Matches (Cat r s) (u ++ v)
  | MOrL r s u : Matches r u -> Matches (Or r s) u
  | MOrR r s u : Matches s u -> Matches (Or r s) u
  | MStarNil r : Matches (Star r) []
  | MStarApp r u v :
      Matches r u -> Matches (Star r) v -> Matches (Star r) (u ++ v).

End JestTransform.

(** ** A concrete instance

    An SDK whose opaque types are all [unit], and an enum table in which
    every member's value is its name in lower case. *)

Definition unitSdk : CheckoutSdk :=
  {| CheckoutSelectors := unit;
     CustomerInitializeOptions := unit;
     CustomerRequestOptions := unit;
     PaymentInitializeOptions := unit;
     PaymentRequestOptions := unit;
     Error := unit;
     Promise := fun T => T;
     Void := unit;
     PaymentMethodRest := unit |}.

Definition lowerCaseEnums : Enums :=
  {| PaymentMethodId :=
       {| Afterpay := "afterpay"; AmazonPay := "amazonpay";
          Braintree := "braintree"; BraintreeVenmo := "braintreevenmo";
          CCAvenueMars := "ccavenuemars"; ChasePay := "chasepay";
          Checkoutcom := "checkoutcom"; Clearpay := "clearpay";
          Humm := "humm"; Laybuy := "laybuy"; Masterpass := "masterpass";
          Moneris := "moneris"; Opy := "opy";
          PaypalCommerceCreditCards := "paypalcommercecreditcards";
          PaypalExpress := "paypalexpress";
          PaypalPaymentsPro := "paypalpaymentspro";
          Quadpay := "quadpay"; Sezzle := "sezzle"; SquareV2 := "squarev2";
          StripeV3 := "stripev3"; StripeUPE := "stripeupe";
          WorldpayAccess := "worldpayaccess"; Zip := "zip" |};
     PaymentMethodProviderType :=
       {| Api := "api"; Hosted := "hosted"; PPSDK := "ppsdk" |};
     PaymentMethodType :=
       {| CreditCard := "creditcard"; Paypal := "paypal";
          PaypalCredit := "paypalcredit" |} |}.

Definition mkMethod (id : string) (gateway : option string)
    (type method : string) : @PaymentMethod.t unitSdk :=
  @PaymentMethod.Build_t unitSdk id gateway type method tt.

Definition idleCallbacks (initializing : bool)
  : @WithCheckoutPaymentMethodProps unitSdk :=
  @Build_WithCheckoutPaymentMethodProps unitSdk initializing
    (fun _ => tt) (fun _ => tt) (fun _ => tt) (fun _ => tt).

Definition mkProps (m : @PaymentMethod.t unitSdk) (embedded : option bool)
    (initializing : bool) : @Props unitSdk :=
  @Build_Props unitSdk
    (@Build_PaymentMethodProps unitSdk m embedded None None None)
    (idleCallbacks initializing).

Definition idleService : @CheckoutService.t unitSdk :=
  @CheckoutService.Build_t unitSdk
    (fun _ => tt) (fun _ => tt) (fun _ => tt) (fun _ => tt).

(** A checkout context in which exactly [initializingId] is initializing. *)
Definition mkContext (initializingId : string)
  : @CheckoutContextProps unitSdk :=
  @Build_CheckoutContextProps unitSdk idleService
    {| statuses := {| isInitializingPayment := String.eqb initializingId |} |}.

(** ** Strict equality decides equality *)

Lemma strictEq_true (a b : string) : (a === b) = true <-> a = b.
Proof. unfold strictEq. apply String.eqb_eq. Qed.

Lemma strictEq_false (a b : string) : (a === b) = false <-> a <> b.
Proof. unfold strictEq. apply String.eqb_neq. Qed.

Lemma strictEq_refl (a : string) : (a === a) = true.
Proof. apply strictEq_true. reflexivity. Qed.

Lemma strictEqOpt_true (o : option string) (b : string) :
  (o ?=== b) = true <-> o = Some b.
Proof.
  destruct o as [s|]; simpl.
  - rewrite String.eqb_eq. split; congruence.
  - split; discriminate.
Qed.

Lemma strictEqOpt_false (o : option string) (b : string) :
  (o ?=== b) = false <-> o <> Some b.
Proof.
  rewrite <- strictEqOpt_true.
  destruct (o ?=== b); split; congruence.
Qed.

Lemma strictEqOpt_Some (a b : string) : (Some a ?=== b) = (a === b).
Proof. reflexivity. Qed.

Lemma notIn_cons_strictEq (x a : string) (l : list string) :
  ~ In x (a :: l) -> (x === a) = false /\ ~ In x l.
Proof.
  intros H. split.
  - apply strictEq_false. intros ->. apply H. left. reflexivity.
  - intros Hin. apply H. right. exact Hin.
Qed.

Arguments strictEq : simpl never.
Arguments strictEqOpt : simpl never.

(** Turn the (in)equalities among the hypotheses into facts about the
    comparisons the selector makes, and rewrite the goal with them. *)
Ltac to_tests :=
  repeat match goal with
  | H : ~ In _ (_ :: _) |- _ =>
      apply notIn_cons_strictEq in H; destruct H as [? H]
  | H : ~ In _ [] |- _ => clear H
  | H : ?a <> ?b :> string |- _ => apply strictEq_false in H
  | H : ?a = ?b :> string |- _ => apply strictEq_true in H
  | H : ?a <> Some ?b :> option string |- _ => apply strictEqOpt_false in H
  | H : ?a = Some ?b :> option string |- _ => apply strictEqOpt_true in H
  end.

Ltac use_tests :=
  repeat match goal with
  | H : (_ === _) = _ |- _ => rewrite ?H; clear H
  | H : (_ ?=== _) = _ |- _ => rewrite ?H; clear H
  end.

(** Walk down a conditional chain, one condition at a time. *)
Ltac walk_chain :=
  repeat match goal with
  | |- context [if ?c then _ else _] =>
      destruct c eqn:?; cbn [option_map React.type];
      try solve [reflexivity | eauto 20 | intuition congruence]
  end.

Section Properties.
Context `{sdk : CheckoutSdk} `{enums : Enums}.

Lemma gatewayNotIn_cons (m : PaymentMethod.t) (a : string) (l : list string) :
  gatewayNotIn m (a :: l) ->
  (m.(PaymentMethod.gateway) ?=== a) = false /\ gatewayNotIn m l.
Proof.
  intros H. split.
  - apply strictEqOpt_false. intros E. apply (H a E). left. reflexivity.
  - intros g E Hin. apply (H g E). right. exact Hin.
Qed.

(** The conditional chain and the ordered registry select the same
    component on every props object. *)
Lemma selected_firstMatch (props : Props) :
  selected props = firstMatch registry (descriptor props).
Proof.
  unfold selected, PaymentMethodComponent, descriptor.
  cbv zeta.
  set (m := props.(ownProps).(method)).
  cbn [registry rule1 rule2BeforeCheckoutcom rule3 rule2AfterCheckoutcom
       rule4 rule5 rule6 app firstMatch holds AnyOf fold_left].
  walk_chain.
Qed.

Lemma holds_four_fields (t : Test) (m1 m2 : PaymentMethod.t) :
  m1.(PaymentMethod.id) = m2.(PaymentMethod.id) ->
  m1.(PaymentMethod.gateway) = m2.(PaymentMethod.gateway) ->
  m1.(PaymentMethod.type) = m2.(PaymentMethod.type) ->
  m1.(PaymentMethod.method) = m2.(PaymentMethod.method) ->
  holds t m1 = holds t m2.
Proof.
  intros Hid Hgw Hty Hme.
  induction t as [s|s|s|s|t IH|t IHt u IHu|t IHt u IHu]; cbn [holds].
  - rewrite Hty. reflexivity.
  - rewrite Hid. reflexivity.
  - rewrite Hgw. reflexivity.
  - rewrite Hme. reflexivity.
  - rewrite IH. reflexivity.
  - rewrite IHt, IHu. reflexivity.
  - rewrite IHt, IHu. reflexivity.
Qed.

Lemma firstMatch_four_fields (rules : list Rule) (m1 m2 : PaymentMethod.t) :
  (forall t, holds t m1 = holds t m2) ->
  firstMatch rules m1 = firstMatch rules m2.
Proof.
  intros H. induction rules as [|[t c] rules IH]; cbn [firstMatch].
  - reflexivity.
  - rewrite (H t), IH. reflexivity.
Qed.

Lemma firstMatch_app (l1 l2 : list Rule) (m : PaymentMethod.t) :
  firstMatch (l1 ++ l2) m =
  match firstMatch l1 m with
  | Some c => Some c
  | None => firstMatch l2 m
  end.
Proof.
  induction l1 as [|[t c] l1 IH]; cbn [app firstMatch].
  - reflexivity.
  - destruct (holds t m); [reflexivity | exact IH].
Qed.

Lemma firstMatch_skip (pre : list Rule) (m : PaymentMethod.t) :
  Forall (fun r => holds (fst r) m = false) pre ->
  firstMatch pre m = None.
Proof.
  induction 1 as [|[t c] pre Ht _ IH]; cbn [firstMatch].
  - reflexivity.
  - cbn [fst] in Ht. rewrite Ht. exact IH.
Qed.

Lemma firstMatch_at (pre post : list Rule) (t : Test) (c : Component)
    (m : PaymentMethod.t) :
  Forall (fun r => holds (fst r) m = false) pre ->
  holds t m = true ->
  firstMatch (pre ++ (t, c) :: post) m = Some c.
Proof.
  intros Hpre Ht.
  rewrite firstMatch_app, (firstMatch_skip _ _ Hpre).
  cbn [firstMatch]. rewrite Ht. reflexivity.
Qed.

(** C1: for every props object (any id, gateway, type and method, the
    gateway possibly absent) the selector evaluates to exactly one
    result, which is either null or an element of one of the imported
    components: it is total and a missing match is the null result. *)
Theorem PaymentMethodComponent_total (props : Props) :
  exists! r,
    PaymentMethodComponent props = r /\
    (r = None \/
     exists c, In c components /\ r = Some (React.createElement c props)).
Proof.
  exists (PaymentMethodComponent props). split.
  - split; [reflexivity|].
    unfold PaymentMethodComponent, components. cbv zeta.
    repeat match goal with
    | |- context [if ?c then _ else _] => destruct c
    | |- None = None \/ _ => left; reflexivity
    | |- Some _ = None \/ _ =>
        right; eexists; split; [|reflexivity]; cbn [In]; tauto
    end.
  - intros r [H _]. exact H.
Qed.

(** C2: a descriptor whose type is the PPSDK provider type selects
    PPSDKPaymentMethod, whatever its id, gateway and method are. *)
Theorem ppsdk_type_selects_ppsdk (props : Props) :
  (descriptor props).(PaymentMethod.type) = PaymentMethodProviderType.(PPSDK) ->
  selected props = Some PPSDKPaymentMethod.
Proof.
  intros H. unfold selected, PaymentMethodComponent, descriptor in *.
  cbv zeta. to_tests. use_tests. reflexivity.
Qed.

(** C3, as the chain orders it: for a descriptor whose type is not PPSDK, the rule-2
    tests are tried in textual order, each on the one field the code
    compares, and the first that holds selects its dedicated widget:
    SquareV2 (id), StripeV3 and StripeUPE (gateway), AmazonPay,
    CCAvenueMars and ChasePay (id) come before the Checkoutcom gateway;
    Masterpass, Braintree, PaypalCommerceCreditCards, PaypalExpress,
    PaypalPaymentsPro (only when type is not Hosted), Moneris and
    WorldpayAccess (id) are reached only when the gateway is not
    Checkoutcom.  With gateway Checkoutcom and none of the first six
    matching, a hosted widget is selected whatever the id. *)
Theorem rule2_first_match_in_textual_order (props : Props) :
  (descriptor props).(PaymentMethod.type) <> PaymentMethodProviderType.(PPSDK) ->
  (forall c,
      firstMatch rule2BeforeCheckoutcom (descriptor props) = Some c ->
      selected props = Some c) /\
  (firstMatch rule2BeforeCheckoutcom (descriptor props) = None ->
   (descriptor props).(PaymentMethod.gateway) <> Some PaymentMethodId.(Checkoutcom) ->
   forall c,
     firstMatch rule2AfterCheckoutcom (descriptor props) = Some c ->
     selected props = Some c) /\
  (firstMatch rule2BeforeCheckoutcom (descriptor props) = None ->
   (descriptor props).(PaymentMethod.gateway) = Some PaymentMethodId.(Checkoutcom) ->
   selected props = Some HostedCreditCardPaymentMethod \/
   selected props = Some HostedPaymentMethod).
Proof.
  intros Hty. apply strictEq_false in Hty.
  rewrite selected_firstMatch. unfold registry.
  rewrite !firstMatch_app.
  cbn [rule1 firstMatch holds]. rewrite Hty.
  repeat split.
  - intros c ->. reflexivity.
  - intros -> Hgw c ->. apply strictEqOpt_false in Hgw.
    cbn [rule3 firstMatch holds]. rewrite Hgw. reflexivity.
  - intros -> Hgw. apply strictEqOpt_true in Hgw.
    cbn [rule3 firstMatch holds]. rewrite Hgw. cbn [andb].
    destruct (_ || _); [left | right]; reflexivity.
Qed.

(** C4, below the earlier rules: for a descriptor with gateway Checkoutcom that no
    earlier rule matches (type not PPSDK, id none of SquareV2, AmazonPay,
    CCAvenueMars, ChasePay, and the gateway neither StripeV3 nor
    StripeUPE), the id "credit_card" or "card" selects
    HostedCreditCardPaymentMethod and any other id selects
    HostedPaymentMethod. *)
Theorem checkoutcom_nested_decision (props : Props) :
  let m := descriptor props in
  m.(PaymentMethod.gateway) = Some PaymentMethodId.(Checkoutcom) ->
  m.(PaymentMethod.type) <> PaymentMethodProviderType.(PPSDK) ->
  ~ In m.(PaymentMethod.id)
       [ PaymentMethodId.(SquareV2); PaymentMethodId.(AmazonPay);
         PaymentMethodId.(CCAvenueMars); PaymentMethodId.(ChasePay) ] ->
  gatewayNotIn m [ PaymentMethodId.(StripeV3); PaymentMethodId.(StripeUPE) ] ->
  (m.(PaymentMethod.id) = "credit_card" \/ m.(PaymentMethod.id) = "card" ->
   selected props = Some HostedCreditCardPaymentMethod) /\
  (m.(PaymentMethod.id) <> "credit_card" -> m.(PaymentMethod.id) <> "card" ->
   selected props = Some HostedPaymentMethod).
Proof.
  intros m Hgw Hty Hid Hst.
  apply gatewayNotIn_cons in Hst. destruct Hst as [Hv3 Hst].
  apply gatewayNotIn_cons in Hst. destruct Hst as [Hupe _].
  unfold selected, PaymentMethodComponent. cbv zeta.
  fold (descriptor props). fold m.
  to_tests. use_tests.
  split.
  - intros [E | E]; apply strictEq_true in E; rewrite E;
      rewrite ?orb_true_r; reflexivity.
  - intros E1 E2. to_tests. use_tests. reflexivity.
Qed.

(** C5, for the first rule that matches: for a descriptor whose method is credit-card and whose
    id satisfies a dedicated id rule of the chain (SquareV2, AmazonPay,
    CCAvenueMars, ChasePay, Masterpass, Braintree,
    PaypalCommerceCreditCards, PaypalExpress, PaypalPaymentsPro with its
    type guard, Moneris, WorldpayAccess, Opy), provided no rule that is
    textually before that id rule matches, the id rule's widget is
    selected; it is not HostedCreditCardPaymentMethod, although the
    rule-6 fallback test holds too. *)
Theorem earlier_id_rule_beats_credit_card_fallback
    (props : Props) (pre post : list Rule) (t : Test) (c : Component) :
  (descriptor props).(PaymentMethod.method) = PaymentMethodType.(CreditCard) ->
  registry = (pre ++ (t, c) :: post)%list ->
  isIdRule t = true ->
  holds t (descriptor props) = true ->
  Forall (fun r => holds (fst r) (descriptor props) = false) pre ->
  selected props = Some c /\
  c <> HostedCreditCardPaymentMethod /\
  firstMatch rule6 (descriptor props) = Some HostedCreditCardPaymentMethod.
Proof.
  intros Hme Hreg Hid Ht Hpre. repeat split.
  - rewrite selected_firstMatch, Hreg.
    apply firstMatch_at; assumption.
  - assert (Hin : In (t, c) registry)
      by (rewrite Hreg; apply in_elt).
    cbn in Hin.
    repeat match goal with
    | H : _ \/ _ |- _ => destruct H as [H | H]
    | H : (_, _) = (_, _) |- _ =>
        injection H as <- <-; first [discriminate Hid | discriminate]
    | H : False |- _ => destruct H
    end.
  - apply strictEq_true in Hme.
    cbn [rule6 firstMatch holds]. rewrite Hme. reflexivity.
Qed.

(** C6: a descriptor whose method is PayPal-credit and that matches no
    earlier rule (type not PPSDK, id none of the rule-2 ids, gateway none
    of StripeV3, StripeUPE, Checkoutcom) selects HostedPaymentMethod. *)
Theorem paypal_credit_selects_hosted (props : Props) :
  let m := descriptor props in
  m.(PaymentMethod.method) = PaymentMethodType.(PaypalCredit) ->
  m.(PaymentMethod.type) <> PaymentMethodProviderType.(PPSDK) ->
  ~ In m.(PaymentMethod.id) rule2Ids ->
  gatewayNotIn m rule23Gateways ->
  selected props = Some HostedPaymentMethod.
Proof.
  intros m Hme Hty Hid Hgw.
  unfold rule2Ids in Hid. unfold rule23Gateways in Hgw.
  apply gatewayNotIn_cons in Hgw. destruct Hgw as [Hv3 Hgw].
  apply gatewayNotIn_cons in Hgw. destruct Hgw as [Hupe Hgw].
  apply gatewayNotIn_cons in Hgw. destruct Hgw as [Hcko _].
  unfold selected, PaymentMethodComponent. cbv zeta.
  fold (descriptor props). fold m.
  to_tests. use_tests.
  rewrite ?andb_false_r, ?orb_true_r. reflexivity.
Qed.

(** C7: a descriptor that matches none of the named rules (type neither
    PPSDK nor Hosted, id and gateway none of the named identifiers,
    method neither PayPal nor PayPal-credit) and whose method is not
    credit-card and whose type is not Api renders nothing. *)
Theorem unmatched_descriptor_renders_nothing (props : Props) :
  let m := descriptor props in
  ~ In m.(PaymentMethod.type)
       [ PaymentMethodProviderType.(PPSDK); PaymentMethodProviderType.(Hosted);
         PaymentMethodProviderType.(Api) ] ->
  ~ In m.(PaymentMethod.id) (rule2Ids ++ rule45Ids) ->
  gatewayNotIn m (rule23Gateways ++ rule4Gateways) ->
  ~ In m.(PaymentMethod.method)
       [ PaymentMethodType.(Paypal); PaymentMethodType.(PaypalCredit);
         PaymentMethodType.(CreditCard) ] ->
  PaymentMethodComponent props = None.
Proof.
  intros m Hty Hid Hgw Hme.
  unfold rule2Ids, rule45Ids in Hid.
  unfold rule23Gateways, rule4Gateways in Hgw.
  cbn [app] in Hid, Hgw.
  repeat match type of Hgw with
  | gatewayNotIn _ (_ :: _) =>
      apply gatewayNotIn_cons in Hgw; destruct Hgw as [? Hgw]
  end.
  clear Hgw.
  unfold PaymentMethodComponent. cbv zeta.
  fold (descriptor props). fold m.
  to_tests. use_tests.
  reflexivity.
Qed.

(** C8: two props objects whose descriptors agree on id, gateway, type
    and method select the same component (or nothing in both), whatever
    their callbacks, flags and remaining fields are. *)
Theorem selection_depends_on_four_fields_only (props1 props2 : Props) :
  let m1 := descriptor props1 in
  let m2 := descriptor props2 in
  m1.(PaymentMethod.id) = m2.(PaymentMethod.id) ->
  m1.(PaymentMethod.gateway) = m2.(PaymentMethod.gateway) ->
  m1.(PaymentMethod.type) = m2.(PaymentMethod.type) ->
  m1.(PaymentMethod.method) = m2.(PaymentMethod.method) ->
  selected props1 = selected props2.
Proof.
  intros m1 m2 Hid Hgw Hty Hme.
  rewrite !selected_firstMatch.
  apply firstMatch_four_fields.
  intros t. apply holds_four_fields; assumption.
Qed.

(** C9: whenever the selector renders a component, on every branch of
    the chain, the element's props are the props the selector was given,
    with nothing added, dropped or changed. *)
Theorem selected_component_receives_props
    (props : Props) (element : React.Element Props) :
  PaymentMethodComponent props = Some element ->
  React.props element = props.
Proof.
  unfold PaymentMethodComponent. cbv zeta.
  repeat match goal with
  | |- context [if ?c then _ else _] => destruct c
  end;
  intros H; first [discriminate H | injection H as <-; reflexivity].
Qed.

(** C10: for every checkout context and every own props, the mapper's
    "is initializing" flag is the context's isInitializingPayment query
    applied to the id of that props' own descriptor, and its four
    lifecycle callbacks are the checkout service's deinitializeCustomer,
    deinitializePayment, initializeCustomer and initializePayment. *)
Theorem mapToWithCheckoutPaymentMethodProps_forwards
    (context : CheckoutContextProps) (own : PaymentMethodProps) :
  let mapped := mapToWithCheckoutPaymentMethodProps context own in
  mapped.(isInitializing) =
    context.(checkoutState).(statuses).(isInitializingPayment)
      own.(method).(PaymentMethod.id) /\
  mapped.(deinitializeCustomer) =
    context.(checkoutService).(CheckoutService.deinitializeCustomer) /\
  mapped.(deinitializePayment) =
    context.(checkoutService).(CheckoutService.deinitializePayment) /\
  mapped.(initializeCustomer) =
    context.(checkoutService).(CheckoutService.initializeCustomer) /\
  mapped.(initializePayment) =
    context.(checkoutService).(CheckoutService.initializePayment).
Proof.
  cbv zeta. unfold mapToWithCheckoutPaymentMethodProps.
  repeat split.
Qed.

End Properties.

(** ** The properties at concrete descriptors *)

Section Examples.

Let select := @selected unitSdk lowerCaseEnums.
Let render := @PaymentMethodComponent unitSdk lowerCaseEnums.
Let describe := @descriptor unitSdk.

Ltac not_listed := cbn; intuition discriminate.
Ltac gateway_not_listed :=
  intros g E; first [discriminate E | injection E as <-; not_listed].

(** A PPSDK descriptor that would otherwise match the SquareV2 id, the
    Checkoutcom gateway and the PayPal method. *)
Lemma ppsdk_type_selects_ppsdk_witness :
  let props :=
    mkProps (mkMethod "squarev2" (Some "checkoutcom") "ppsdk" "paypal")
            None false in
  PaymentMethod.type (describe props) = "ppsdk" /\
  select props = Some PPSDKPaymentMethod.
Proof.
  cbv zeta. split; [reflexivity|].
  apply (@ppsdk_type_selects_ppsdk unitSdk lowerCaseEnums). reflexivity.
Defined.

(** C3 fails regardless of the gateway.  The Masterpass id behind the
    Checkoutcom gateway: the gateway's
    nested decision is reached first, and the generic hosted widget is
    selected instead of the id's dedicated widget. *)
Lemma masterpass_behind_checkoutcom_is_hosted :
  let props :=
    mkProps (mkMethod "masterpass" (Some "checkoutcom") "api" "creditcard")
            None false in
  In (PaymentMethod.id (describe props), MasterpassPaymentMethod)
     (@rule2Widgets lowerCaseEnums) /\
  PaymentMethod.gateway (describe props) = Some "checkoutcom" /\
  PaymentMethod.type (describe props) <> "ppsdk" /\
  select props = Some HostedPaymentMethod /\
  select props <> Some MasterpassPaymentMethod.
Proof.
  cbv zeta. repeat split; try discriminate.
  cbn. tauto.
Qed.

Lemma rule2_first_match_in_textual_order_witness :
  let amazon :=
    mkProps (mkMethod "amazonpay" (Some "checkoutcom") "api" "creditcard")
            None false in
  let paypalPro :=
    mkProps (mkMethod "paypalpaymentspro" None "api" "creditcard")
            None false in
  let moneris :=
    mkProps (mkMethod "moneris" (Some "checkoutcom") "api" "creditcard")
            None false in
  select amazon = Some AmazonPayV2PaymentMethod /\
  select paypalPro = Some PaypalPaymentsProPaymentMethod /\
  (select moneris = Some HostedCreditCardPaymentMethod \/
   select moneris = Some HostedPaymentMethod).
Proof.
  cbv zeta. split; [|split].
  - refine (proj1 (@rule2_first_match_in_textual_order
                     unitSdk lowerCaseEnums _ _) _ _);
      [discriminate | reflexivity].
  - refine (proj1 (proj2 (@rule2_first_match_in_textual_order
                            unitSdk lowerCaseEnums _ _)) _ _ _ _);
      [discriminate | reflexivity | discriminate | reflexivity].
  - refine (proj2 (proj2 (@rule2_first_match_in_textual_order
                            unitSdk lowerCaseEnums _ _)) _ _);
      [discriminate | reflexivity | reflexivity].
Defined.

(** C4 fails for every Checkoutcom descriptor.  A PPSDK descriptor with
    gateway Checkoutcom and id "card" gets the
    PPSDK widget, and the SquareV2 id behind the Checkoutcom gateway gets
    the Square widget: neither gets a hosted widget. *)
Lemma checkoutcom_gateway_can_be_preempted :
  let ppsdk :=
    mkProps (mkMethod "card" (Some "checkoutcom") "ppsdk" "creditcard")
            None false in
  let square :=
    mkProps (mkMethod "squarev2" (Some "checkoutcom") "api" "creditcard")
            None false in
  (PaymentMethod.gateway (describe ppsdk) = Some "checkoutcom" /\
   PaymentMethod.id (describe ppsdk) = "card" /\
   select ppsdk = Some PPSDKPaymentMethod /\
   select ppsdk <> Some HostedCreditCardPaymentMethod) /\
  (PaymentMethod.gateway (describe square) = Some "checkoutcom" /\
   PaymentMethod.id (describe square) <> "credit_card" /\
   PaymentMethod.id (describe square) <> "card" /\
   select square = Some SquarePaymentMethod /\
   select square <> Some HostedPaymentMethod).
Proof.
  cbv zeta. repeat split; discriminate.
Qed.

Lemma checkoutcom_nested_decision_witness :
  let card :=
    mkProps (mkMethod "card" (Some "checkoutcom") "hosted" "paypal")
            None false in
  let other :=
    mkProps (mkMethod "moneris" (Some "checkoutcom") "api" "creditcard")
            None false in
  select card = Some HostedCreditCardPaymentMethod /\
  select other = Some HostedPaymentMethod.
Proof.
  cbv zeta. split.
  - apply (@checkoutcom_nested_decision unitSdk lowerCaseEnums);
      [reflexivity | discriminate | not_listed | gateway_not_listed
      | right; reflexivity].
  - apply (@checkoutcom_nested_decision unitSdk lowerCaseEnums);
      [reflexivity | discriminate | not_listed | gateway_not_listed
      | discriminate | discriminate].
Defined.

(** C5 fails for every credit-card descriptor with a dedicated id.  The
    Moneris id with the credit-card method behind the Checkoutcom
    gateway: neither the Moneris widget nor the fallback is selected. *)
Lemma moneris_credit_card_behind_checkoutcom_is_hosted :
  let props :=
    mkProps (mkMethod "moneris" (Some "checkoutcom") "api" "creditcard")
            None false in
  PaymentMethod.method (describe props) = "creditcard" /\
  PaymentMethod.id (describe props) = "moneris" /\
  select props = Some HostedPaymentMethod /\
  select props <> Some MonerisPaymentMethod.
Proof.
  cbv zeta. repeat split; discriminate.
Qed.

Lemma earlier_id_rule_beats_credit_card_fallback_witness :
  let props :=
    mkProps (mkMethod "moneris" None "api" "creditcard") None false in
  PaymentMethod.method (describe props) = "creditcard" /\
  select props = Some MonerisPaymentMethod /\
  MonerisPaymentMethod <> HostedCreditCardPaymentMethod /\
  firstMatch (@rule6 lowerCaseEnums) (describe props)
    = Some HostedCreditCardPaymentMethod.
Proof.
  cbv zeta. split; [reflexivity|].
  apply (@earlier_id_rule_beats_credit_card_fallback unitSdk lowerCaseEnums
           _ (firstn 14 (@registry lowerCaseEnums))
             (skipn 15 (@registry lowerCaseEnums))
             (IdIs "moneris")).
  - reflexivity.
  - reflexivity.
  - reflexivity.
  - reflexivity.
  - repeat constructor.
Defined.

(** PayPal-credit on an Api descriptor: rule 4 is reached before the
    fallback that the Api type would satisfy. *)
Lemma paypal_credit_selects_hosted_witness :
  let props :=
    mkProps (mkMethod "paypalcredit" None "api" "paypalcredit") None false in
  PaymentMethod.method (describe props) = "paypalcredit" /\
  select props = Some HostedPaymentMethod.
Proof.
  cbv zeta. split; [reflexivity|].
  apply (@paypal_credit_selects_hosted unitSdk lowerCaseEnums);
    [reflexivity | discriminate | not_listed | gateway_not_listed].
Defined.

Lemma unmatched_descriptor_renders_nothing_witness :
  render (mkProps (mkMethod "giftcertificate" (Some "barclays")
                            "wallet" "gift-certificate") None false)
  = None.
Proof.
  apply (@unmatched_descriptor_renders_nothing unitSdk lowerCaseEnums);
    [not_listed | not_listed | gateway_not_listed | not_listed].
Defined.

(** Same descriptor fields, different flags. *)
Lemma selection_depends_on_four_fields_only_witness :
  let m := mkMethod "zip" (Some "afterpay") "api" "creditcard" in
  select (mkProps m (Some true) true) = select (mkProps m None false).
Proof.
  cbv zeta.
  apply (@selection_depends_on_four_fields_only unitSdk lowerCaseEnums);
    reflexivity.
Defined.

Lemma selected_component_receives_props_witness :
  let props :=
    mkProps (mkMethod "opy" None "api" "creditcard") (Some true) true in
  render props = Some (React.createElement OpyPaymentMethod props) /\
  React.props (React.createElement OpyPaymentMethod props) = props.
Proof.
  cbv zeta. split; [reflexivity|].
  apply (@selected_component_receives_props unitSdk lowerCaseEnums).
  reflexivity.
Defined.

End Examples.

(** ** Further properties of the chain *)


Lemma in_cons_strictEq (x a : string) (l : list string) :
  In x (a :: l) -> (x === a) = true \/ In x l.
Proof.
  intros [E | H]; [left | right; exact H].
  apply strictEq_true. symmetry. exact E.
Qed.



Section MoreProperties.
Context `{sdk : CheckoutSdk} `{enums : Enums}.



Lemma gatewayIn_cons (m : PaymentMethod.t) (g a : string) (l : list string) :
  m.(PaymentMethod.gateway) = Some g -> In g (a :: l) ->
  (m.(PaymentMethod.gateway) ?=== a) = true \/ In g l.
Proof.
  intros Hg [E | H]; [left | right; exact H].
  apply strictEqOpt_true. congruence.
Qed.


Ltac split_gateways H :=
  repeat match type of H with
  | gatewayNotIn _ (_ :: _) =>
      let E := fresh "Hgw" in
      apply gatewayNotIn_cons in H; destruct H as [E H]
  end;
  clear H.

(** X1: on every props object the conditional chain renders what a
    first-match lookup in the ordered registry selects, as an element of
    that component carrying the given props. *)
Theorem chain_renders_first_match_of_registry (props : Props) :
  PaymentMethodComponent props =
  option_map (fun c => React.createElement c props)
             (firstMatch registry (descriptor props)).
Proof.
  rewrite <- selected_firstMatch.
  unfold selected, PaymentMethodComponent. cbv zeta.
  repeat match goal with
  | |- context [if ?c then _ else _] => destruct c; try reflexivity
  end.
Qed.


(** X3: a dedicated widget is rendered only for its own identifier: a
    widget keyed on an id only when the descriptor's id is that id, a
    widget keyed on a gateway only when the descriptor's gateway is that
    gateway, and PaypalPaymentsProPaymentMethod only when the type is not
    Hosted. *)
Theorem dedicated_widget_only_for_its_identifier
    (props : Props) (c : Component) (x : string) :
  let m := descriptor props in
  selected props = Some c ->
  (In (x, c) dedicatedById -> m.(PaymentMethod.id) = x) /\
  (In (x, c) dedicatedByGateway -> m.(PaymentMethod.gateway) = Some x) /\
  (c = PaypalPaymentsProPaymentMethod ->
   m.(PaymentMethod.type) <> PaymentMethodProviderType.(Hosted)).
Proof.
  intros m. unfold selected, PaymentMethodComponent. cbv zeta.
  fold (descriptor props). fold m.
  repeat match goal with
  | |- context [if ?c then _ else _] => destruct c eqn:?
  end;
  cbn [option_map React.type]; intros H;
  (discriminate H || injection H as <-);
  repeat match goal with
  | G : _ && _ = true |- _ => apply andb_true_iff in G; destruct G
  | G : negb _ = true |- _ => apply negb_true_iff in G
  end;
  (split; [|split]);
  try (intros Hc; discriminate Hc);
  try (intros Hin; cbn in Hin;
       repeat match goal with
       | G : _ \/ _ |- _ => destruct G as [G | G]
       | G : (_, _) = (_, _) |- _ =>
           first [discriminate G | injection G as <-]
       | G : False |- _ => destruct G
       end;
       first [apply strictEq_true | apply strictEqOpt_true]; assumption).
  intros _. apply strictEq_false. assumption.
Qed.

(** X4: the whole rule-4 disjunction.  A descriptor that no rule before
    it matches (type not PPSDK, id none of the rule-2 ids, gateway none of
    StripeV3, StripeUPE, Checkoutcom) and whose gateway is Afterpay or
    Clearpay, or whose id is one of BraintreeVenmo, Humm, Laybuy, Quadpay,
    Sezzle, Zip, or whose method is PayPal or PayPal-credit, or whose type
    is Hosted, gets HostedPaymentMethod. *)
Theorem rule4_selects_hosted (props : Props) :
  let m := descriptor props in
  m.(PaymentMethod.type) <> PaymentMethodProviderType.(PPSDK) ->
  ~ In m.(PaymentMethod.id) rule2Ids ->
  gatewayNotIn m rule23Gateways ->
  (exists g, m.(PaymentMethod.gateway) = Some g /\ In g rule4Gateways) \/
  In m.(PaymentMethod.id) rule4Ids \/
  In m.(PaymentMethod.method)
     [ PaymentMethodType.(Paypal); PaymentMethodType.(PaypalCredit) ] \/
  m.(PaymentMethod.type) = PaymentMethodProviderType.(Hosted) ->
  selected props = Some HostedPaymentMethod.
Proof.
  intros m Hty Hid Hgw Hany.
  unfold rule2Ids in Hid. unfold rule23Gateways in Hgw.
  split_gateways Hgw.
  assert (Hrule4 :
    (m.(PaymentMethod.gateway) ?=== PaymentMethodId.(Afterpay))
    || (m.(PaymentMethod.gateway) ?=== PaymentMethodId.(Clearpay))
    || (m.(PaymentMethod.id) === PaymentMethodId.(BraintreeVenmo))
    || (m.(PaymentMethod.id) === PaymentMethodId.(Humm))
    || (m.(PaymentMethod.id) === PaymentMethodId.(Laybuy))
    || (m.(PaymentMethod.id) === PaymentMethodId.(Quadpay))
    || (m.(PaymentMethod.id) === PaymentMethodId.(Sezzle))
    || (m.(PaymentMethod.id) === PaymentMethodId.(Zip))
    || (m.(PaymentMethod.method) === PaymentMethodType.(Paypal))
    || (m.(PaymentMethod.method) === PaymentMethodType.(PaypalCredit))
    || (m.(PaymentMethod.type) === PaymentMethodProviderType.(Hosted)) = true).
  { destruct Hany as [(g & Hg & Hin) | [Hin | [Hin | E]]].
    - unfold rule4Gateways in Hin.
      repeat match type of Hin with
      | In _ (_ :: _) =>
          apply (gatewayIn_cons m _ _ _ Hg) in Hin; destruct Hin as [E | Hin];
          [rewrite E; rewrite ?orb_true_r; reflexivity|]
      end.
      destruct Hin.
    - unfold rule4Ids in Hin.
      repeat match type of Hin with
      | In _ (_ :: _) =>
          apply in_cons_strictEq in Hin; destruct Hin as [E | Hin];
          [rewrite E; rewrite ?orb_true_r; reflexivity|]
      end.
      destruct Hin.
    - repeat match type of Hin with
      | In _ (_ :: _) =>
          apply in_cons_strictEq in Hin; destruct Hin as [E | Hin];
          [rewrite E; rewrite ?orb_true_r; reflexivity|]
      end.
      destruct Hin.
    - apply strictEq_true in E. rewrite E. apply orb_true_r. }
  unfold selected, PaymentMethodComponent. cbv zeta.
  fold (descriptor props). fold m.
  rewrite Hrule4.
  to_tests. use_tests.
  rewrite ?andb_false_r. reflexivity.
Qed.

(** X5: the guard of the PaypalPaymentsPro rule.  A Hosted descriptor that
    no unguarded earlier rule matches gets HostedPaymentMethod; its id may
    be PaypalPaymentsPro, which then does not get its dedicated widget. *)
Theorem hosted_type_bypasses_paypal_payments_pro (props : Props) :
  let m := descriptor props in
  m.(PaymentMethod.type) = PaymentMethodProviderType.(Hosted) ->
  m.(PaymentMethod.type) <> PaymentMethodProviderType.(PPSDK) ->
  ~ In m.(PaymentMethod.id) rule2UnguardedIds ->
  gatewayNotIn m rule23Gateways ->
  selected props = Some HostedPaymentMethod.
Proof.
  intros m Hho Hty Hid Hgw.
  unfold rule2UnguardedIds in Hid. unfold rule23Gateways in Hgw.
  split_gateways Hgw.
  unfold selected, PaymentMethodComponent. cbv zeta.
  fold (descriptor props). fold m.
  to_tests. use_tests.
  cbn [negb andb]. rewrite ?orb_true_r. reflexivity.
Qed.

(** X6: the fallback.  A descriptor that none of the rules before it
    matches and whose method is credit-card or whose type is Api gets
    HostedCreditCardPaymentMethod. *)
Theorem fallback_selects_hosted_credit_card (props : Props) :
  let m := descriptor props in
  ~ In m.(PaymentMethod.type)
       [ PaymentMethodProviderType.(PPSDK); PaymentMethodProviderType.(Hosted) ] ->
  ~ In m.(PaymentMethod.id) (rule2Ids ++ rule45Ids) ->
  gatewayNotIn m (rule23Gateways ++ rule4Gateways) ->
  ~ In m.(PaymentMethod.method)
       [ PaymentMethodType.(Paypal); PaymentMethodType.(PaypalCredit) ] ->
  m.(PaymentMethod.method) = PaymentMethodType.(CreditCard) \/
  m.(PaymentMethod.type) = PaymentMethodProviderType.(Api) ->
  selected props = Some HostedCreditCardPaymentMethod.
Proof.
  intros m Hty Hid Hgw Hme Hfb.
  unfold rule2Ids, rule45Ids in Hid.
  unfold rule23Gateways, rule4Gateways in Hgw.
  cbn [app] in Hid, Hgw.
  split_gateways Hgw.
  assert (Hrule6 :
    (m.(PaymentMethod.method) === PaymentMethodType.(CreditCard))
    || (m.(PaymentMethod.type) === PaymentMethodProviderType.(Api)) = true).
  { destruct Hfb as [E | E]; apply strictEq_true in E; rewrite E;
      rewrite ?orb_true_r; reflexivity. }
  unfold selected, PaymentMethodComponent. cbv zeta.
  fold (descriptor props). fold m.
  rewrite Hrule6.
  to_tests. use_tests.
  reflexivity.
Qed.

(** X7: a gateway the chain does not name counts as no gateway.  Two
    descriptors with the same id, type and method, whose gateways (absent
    or not) are none of StripeV3, StripeUPE, Checkoutcom, Afterpay,
    Clearpay, select the same component. *)
Theorem unnamed_gateway_is_ignored (props1 props2 : Props) :
  let m1 := descriptor props1 in
  let m2 := descriptor props2 in
  m1.(PaymentMethod.id) = m2.(PaymentMethod.id) ->
  m1.(PaymentMethod.type) = m2.(PaymentMethod.type) ->
  m1.(PaymentMethod.method) = m2.(PaymentMethod.method) ->
  gatewayNotIn m1 namedGateways ->
  gatewayNotIn m2 namedGateways ->
  selected props1 = selected props2.
Proof.
  intros m1 m2 Hid Hty Hme Hgw1 Hgw2.
  unfold namedGateways in Hgw1, Hgw2.
  split_gateways Hgw1. split_gateways Hgw2.
  unfold selected, PaymentMethodComponent. cbv zeta.
  fold (descriptor props1). fold (descriptor props2). fold m1. fold m2.
  rewrite Hid, Hty, Hme.
  use_tests. walk_chain.
Qed.

(** X8: PPSDKPaymentMethod is rendered exactly for the descriptors whose
    type is PPSDK. *)
Theorem ppsdk_widget_iff_ppsdk_type (props : Props) :
  selected props = Some PPSDKPaymentMethod <->
  (descriptor props).(PaymentMethod.type) = PaymentMethodProviderType.(PPSDK).
Proof.
  unfold selected, PaymentMethodComponent, descriptor. cbv zeta.
  destruct (_ === PaymentMethodProviderType.(PPSDK)) eqn:E.
  - apply strictEq_true in E. split; [intros _; exact E | reflexivity].
  - apply strictEq_false in E. split; [|intros E'; contradiction].
    repeat match goal with
    | |- context [if ?c then _ else _] => destruct c
    end;
    intros H; discriminate H.
Qed.

(** X9: the hosted widgets are rendered only on their own rules:
    HostedCreditCardPaymentMethod only for a Checkoutcom descriptor with id
    "credit_card" or "card", a credit-card method or an Api type;
    HostedPaymentMethod only for a Checkoutcom, Afterpay or Clearpay
    gateway, an id of rule 4, a PayPal or PayPal-credit method or a Hosted
    type. *)
Theorem hosted_widgets_only_on_their_rules (props : Props) :
  let m := descriptor props in
  (selected props = Some HostedCreditCardPaymentMethod ->
   (m.(PaymentMethod.gateway) = Some PaymentMethodId.(Checkoutcom) /\
    (m.(PaymentMethod.id) = "credit_card" \/ m.(PaymentMethod.id) = "card")) \/
   m.(PaymentMethod.method) = PaymentMethodType.(CreditCard) \/
   m.(PaymentMethod.type) = PaymentMethodProviderType.(Api)) /\
  (selected props = Some HostedPaymentMethod ->
   (exists g, m.(PaymentMethod.gateway) = Some g /\
              In g [ PaymentMethodId.(Checkoutcom); PaymentMethodId.(Afterpay);
                     PaymentMethodId.(Clearpay) ]) \/
   In m.(PaymentMethod.id) rule4Ids \/
   In m.(PaymentMethod.method)
      [ PaymentMethodType.(Paypal); PaymentMethodType.(PaypalCredit) ] \/
   m.(PaymentMethod.type) = PaymentMethodProviderType.(Hosted)).
Proof.
  intros m. unfold selected, PaymentMethodComponent, rule4Ids. cbv zeta.
  fold (descriptor props). fold m.
  repeat match goal with
  | |- context [if ?c then _ else _] => destruct c eqn:?
  end;
  cbn [option_map React.type];
  (split; intros H; [try discriminate H | try discriminate H]);
  repeat match goal with
  | G : (_ || _) = true |- _ => apply orb_true_iff in G; destruct G as [G | G]
  | G : (_ === _) = true |- _ => apply strictEq_true in G
  | G : (_ ?=== _) = true |- _ => apply strictEqOpt_true in G
  end;
  cbn [In]; eauto 12.
Qed.

(** X10: the mapped props depend on the own props only through the id of
    their descriptor: under one checkout context, two own props whose
    descriptors have the same id are mapped to the same props. *)
Theorem mapToWithCheckoutPaymentMethodProps_reads_id_only
    (context : CheckoutContextProps) (own1 own2 : PaymentMethodProps) :
  own1.(method).(PaymentMethod.id) = own2.(method).(PaymentMethod.id) ->
  mapToWithCheckoutPaymentMethodProps context own1 =
  mapToWithCheckoutPaymentMethodProps context own2.
Proof.
  intros E. unfold mapToWithCheckoutPaymentMethodProps. cbv zeta.
  rewrite E. reflexivity.
Qed.

End MoreProperties.

(** ** The transform pattern *)

Module JestTransformFacts.
Import JestTransform.

Lemma Matches_Cat_inv (r q : RegExp) (w : list N) :
  Matches (Cat r q) w ->
  exists u v, w = (u ++ v)%list /\ Matches r u /\ Matches q v.
Proof.
  intros H. inversion H; subst. eauto.
Qed.

Lemma nullable_Matches (r : RegExp) : nullable r = true <-> Matches r [].
Proof.
  induction r as [| | |c|cs|r IHr s IHs|r IHr s IHs|r IHr]; cbn [nullable].
  - split; [discriminate | intros H; inversion H].
  - split; [intros _; constructor | reflexivity].
  - split; [discriminate | intros H; inversion H].
  - split; [discriminate | intros H; inversion H].
  - split; [discriminate | intros H; inversion H].
  - rewrite andb_true_iff, IHr, IHs. split.
    + intros [Hr Hs]. exact (MCat _ _ [] [] Hr Hs).
    + intros H. apply Matches_Cat_inv in H.
      destruct H as (u & v & E & Hr & Hs).
      symmetry in E. apply app_eq_nil in E. destruct E; subst.
      split; assumption.
  - rewrite orb_true_iff, IHr, IHs. split.
    + intros [H | H]; [apply MOrL | apply MOrR]; exact H.
    + intros H. inversion H; subst; [left | right]; assumption.
  - split; [intros _; constructor | reflexivity].
Qed.

(** A non-empty match of a starred pattern starts with a non-empty match
    of its body. *)
Lemma Matches_Star_cons (r : RegExp) (c : N) (s : list N) :
  Matches (Star r) (c :: s) ->
  exists u v, s = (u ++ v)%list /\ Matches r (c :: u) /\ Matches (Star r) v.
Proof.
  intros H.
  remember (Star r) as q eqn:Eq. remember (c :: s) as w eqn:Ew.
  revert c s Ew.
  induction H as [| | | | | | | |q' u v Hu _ Hv IHv]; try discriminate.
  intros c s Ew. injection Eq as ->.
  destruct u as [|d u].
  - cbn [app] in Ew. exact (IHv eq_refl c s Ew).
  - cbn [app] in Ew. injection Ew as -> <-.
    exists u, v. repeat split; assumption.
Qed.

Lemma deriv_Matches (c : N) (r : RegExp) (s : list N) :
  Matches (deriv c r) s <-> Matches r (c :: s).
Proof.
  revert s.
  induction r as [| | |d|cs|r IHr q IHq|r IHr q IHq|r IHr];
    intros s; cbn [deriv].
  - split; intros H; inversion H.
  - split; intros H; inversion H.
  - destruct (isLineTerminator c) eqn:E; split; intros H; inversion H; subst.
    + congruence.
    + constructor. exact E.
    + constructor.
  - destruct (N.eqb_spec c d) as [->|Hne]; split; intros H;
      inversion H; subst; try constructor. congruence.
  - destruct (existsb (N.eqb c) cs) eqn:E; split; intros H;
      inversion H; subst.
    + constructor. apply existsb_exists in E. destruct E as (x & Hx & Ex).
      apply N.eqb_eq in Ex. subst. exact Hx.
    + constructor.
    + assert (existsb (N.eqb c) cs = true) as E'
        by (apply existsb_exists; exists c; split;
            [assumption | apply N.eqb_refl]).
      congruence.
  - assert (Hleft : forall s, Matches (Cat (deriv c r) q) s ->
                              Matches (Cat r q) (c :: s)).
    { intros w H. apply Matches_Cat_inv in H.
      destruct H as (u & v & -> & Hu & Hv).
      apply IHr in Hu. exact (MCat _ _ (c :: u) v Hu Hv). }
    assert (Hinv : Matches (Cat r q) (c :: s) ->
                   Matches (Cat (deriv c r) q) s \/
                   (nullable r = true /\ Matches (deriv c q) s)).
    { intros H. apply Matches_Cat_inv in H.
      destruct H as (u & v & E & Hu & Hv).
      destruct u as [|d u]; cbn [app] in E.
      - right. subst v. split; [apply nullable_Matches; exact Hu|].
        apply IHq. exact Hv.
      - injection E as <- ->. left. apply MCat; [|exact Hv].
        apply IHr. exact Hu. }
    destruct (nullable r) eqn:En; split.
    + intros H. inversion H; subst.
      * apply Hleft. assumption.
      * apply (MCat _ _ [] (c :: s)).
        -- apply nullable_Matches. exact En.
        -- apply IHq. assumption.
    + intros H. destruct (Hinv H) as [H' | [_ H']];
        [apply MOrL | apply MOrR]; exact H'.
    + apply Hleft.
    + intros H. destruct (Hinv H) as [H' | [E _]];
        [exact H' | discriminate E].
  - split; intros H; inversion H; subst.
    + apply MOrL. apply IHr. assumption.
    + apply MOrR. apply IHq. assumption.
    + apply MOrL. apply IHr. assumption.
    + apply MOrR. apply IHq. assumption.
  - split.
    + intros H. apply Matches_Cat_inv in H.
      destruct H as (u & v & -> & Hu & Hv).
      apply IHr in Hu. exact (MStarApp _ (c :: u) v Hu Hv).
    + intros H. apply Matches_Star_cons in H.
      destruct H as (u & v & -> & Hu & Hv).
      apply MCat; [apply IHr; exact Hu | exact Hv].
Qed.

(** The matcher decides the matches of a pattern. *)
Lemma fullMatch_Matches (r : RegExp) (input : list N) :
  fullMatch r input = true <-> Matches r input.
Proof.
  unfold fullMatch. revert r.
  induction input as [|c input IH]; intros r; cbn [fold_left].
  - apply nullable_Matches.
  - rewrite IH. apply deriv_Matches.
Qed.

Lemma Matches_Star_Dot (s : list N) :
  Matches (Star Dot) s <-> Forall dotMatches s.
Proof.
  split.
  - intros H. remember (Star Dot) as q eqn:Eq.
    induction H as [| | | | | | | |q' u v Hu _ Hv IHv]; try discriminate.
    + constructor.
    + injection Eq as ->. inversion Hu; subst.
      constructor; [assumption | apply IHv; reflexivity].
  - induction 1 as [|c s Hc _ IH].
    + constructor.
    + exact (MStarApp Dot [c] s (MDot c Hc) IH).
Qed.

(** X11: the transform pattern ['^.+\\.[tj]sx?$'] matches exactly the
    paths made of a non-empty stem without line terminators, a dot, and one
    of the extensions ts, tsx, js, jsx; the stem may itself contain dots
    and slashes. *)
Theorem transform_pattern_matches_script_paths (path : list N) :
  test path = true <->
  exists stem ext,
    path = (stem ++ N_of_ascii "." :: ext)%list /\
    stem <> [] /\
    Forall dotMatches stem /\
    In ext scriptExtensions.
Proof.
  unfold test. rewrite fullMatch_Matches.
  unfold transformPattern, Plus, Opt. split.
  - intros H.
    apply Matches_Cat_inv in H. destruct H as (stem & rest & -> & Hs & Hr).
    apply Matches_Cat_inv in Hs. destruct Hs as (c & more & -> & Hc & Hm).
    apply Matches_Cat_inv in Hr. destruct Hr as (dot & r1 & -> & Hdot & Hr).
    apply Matches_Cat_inv in Hr. destruct Hr as (tj & r2 & -> & Htj & Hr).
    apply Matches_Cat_inv in Hr. destruct Hr as (s & x & -> & Hs & Hx).
    inversion Hc; subst. inversion Hdot; subst.
    inversion Htj as [| | |l ? Hin| | | | |]; subst. inversion Hs; subst.
    apply Matches_Star_Dot in Hm.
    eexists. eexists. split; [reflexivity|].
    split; [discriminate|].
    split; [constructor; assumption|].
    unfold scriptExtensions, codeUnits. cbn.
    cbn [In] in Hin.
    inversion Hx as [| | | | |? ? ? Hx'|? ? ? Hx'| |]; subst;
      inversion Hx'; subst;
      destruct Hin as [<- | [<- | []]]; cbn; tauto.
  - intros (stem & ext & -> & Hne & Hok & Hext).
    destruct stem as [|c stem]; [contradiction|].
    inversion Hok as [|? ? Hc Hstem]; subst.
    apply Matches_Star_Dot in Hstem.
    apply (MCat _ _ (c :: stem) (N_of_ascii "." :: ext)).
    + exact (MCat _ _ [c] stem (MDot c Hc) Hstem).
    + apply (MCat _ _ [N_of_ascii "."] ext (MChr _)).
      unfold scriptExtensions, codeUnits in Hext. cbn in Hext.
      destruct Hext as [<- | [<- | [<- | [<- | []]]]].
      * apply (MCat _ _ [_] [_]); [constructor; cbn; tauto|].
        apply (MCat _ _ [_] []); [constructor|]. apply MOrR. constructor.
      * apply (MCat _ _ [_] [_; _]); [constructor; cbn; tauto|].
        apply (MCat _ _ [_] [_]); [constructor|]. apply MOrL. constructor.
      * apply (MCat _ _ [_] [_]); [constructor; cbn; tauto|].
        apply (MCat _ _ [_] []); [constructor|]. apply MOrR. constructor.
      * apply (MCat _ _ [_] [_; _]); [constructor; cbn; tauto|].
        apply (MCat _ _ [_] [_]); [constructor|]. apply MOrL. constructor.
Qed.

End JestTransformFacts.

(** ** The further properties at concrete inputs *)

Section MoreExamples.

Let select := @selected unitSdk lowerCaseEnums.
Let render := @PaymentMethodComponent unitSdk lowerCaseEnums.
Let describe := @descriptor unitSdk.
Let mapped := @mapToWithCheckoutPaymentMethodProps unitSdk.

Ltac not_listed := cbn; intuition discriminate.
Ltac gateway_not_listed :=
  intros g E; first [discriminate E | injection E as <-; not_listed].


Lemma dedicated_widget_only_for_its_identifier_witness :
  let props :=
    mkProps (mkMethod "moneris" None "api" "creditcard") None false in
  select props = Some MonerisPaymentMethod /\
  PaymentMethod.id (describe props) = "moneris".
Proof.
  cbv zeta. split; [reflexivity|].
  refine (proj1 (@dedicated_widget_only_for_its_identifier
                   unitSdk lowerCaseEnums _ MonerisPaymentMethod "moneris" _) _).
  - reflexivity.
  - cbn. tauto.
Defined.

(** The Afterpay gateway on an Api credit-card descriptor. *)
Lemma rule4_selects_hosted_witness :
  select (mkProps (mkMethod "pay_by_installment" (Some "afterpay")
                            "api" "creditcard") None false)
  = Some HostedPaymentMethod.
Proof.
  apply (@rule4_selects_hosted unitSdk lowerCaseEnums);
    [discriminate | not_listed | gateway_not_listed |].
  left. exists "afterpay". split; [reflexivity | cbn; tauto].
Defined.

Lemma hosted_type_bypasses_paypal_payments_pro_witness :
  let props :=
    mkProps (mkMethod "paypalpaymentspro" None "hosted" "creditcard")
            None false in
  PaymentMethod.id (describe props)
    = PaypalPaymentsPro (@PaymentMethodId lowerCaseEnums) /\
  select props = Some HostedPaymentMethod.
Proof.
  cbv zeta. split; [reflexivity|].
  apply (@hosted_type_bypasses_paypal_payments_pro unitSdk lowerCaseEnums);
    [reflexivity | discriminate | not_listed | gateway_not_listed].
Defined.

(** The Api type alone reaches the fallback. *)
Lemma fallback_selects_hosted_credit_card_witness :
  select (mkProps (mkMethod "authorizenet" None "api" "multi-option")
                  None false)
  = Some HostedCreditCardPaymentMethod.
Proof.
  apply (@fallback_selects_hosted_credit_card unitSdk lowerCaseEnums);
    [not_listed | not_listed | gateway_not_listed | not_listed
    | right; reflexivity].
Defined.

Lemma unnamed_gateway_is_ignored_witness :
  select (mkProps (mkMethod "ideal" (Some "adyen") "api" "multi-option")
                  None false)
  = select (mkProps (mkMethod "ideal" None "api" "multi-option") None false).
Proof.
  apply (@unnamed_gateway_is_ignored unitSdk lowerCaseEnums);
    [reflexivity | reflexivity | reflexivity
    | gateway_not_listed | gateway_not_listed].
Defined.

Lemma ppsdk_widget_iff_ppsdk_type_witness :
  let props :=
    mkProps (mkMethod "card" (Some "checkoutcom") "ppsdk" "creditcard")
            None false in
  select props = Some PPSDKPaymentMethod /\
  PaymentMethod.type (describe props) = "ppsdk".
Proof.
  cbv zeta. split; [reflexivity|].
  refine (proj1 (@ppsdk_widget_iff_ppsdk_type unitSdk lowerCaseEnums _) _).
  reflexivity.
Defined.

Lemma hosted_widgets_only_on_their_rules_witness :
  let props :=
    mkProps (mkMethod "card" (Some "checkoutcom") "hosted" "paypal")
            None false in
  select props = Some HostedCreditCardPaymentMethod /\
  ((PaymentMethod.gateway (describe props) = Some "checkoutcom" /\
    (PaymentMethod.id (describe props) = "credit_card" \/
     PaymentMethod.id (describe props) = "card")) \/
   PaymentMethod.method (describe props) = "creditcard" \/
   PaymentMethod.type (describe props) = "api").
Proof.
  cbv zeta. split; [reflexivity|].
  refine (proj1 (@hosted_widgets_only_on_their_rules
                   unitSdk lowerCaseEnums _) _).
  reflexivity.
Defined.

(** Two own props for the same id, differing in every other field. *)
Lemma mapToWithCheckoutPaymentMethodProps_reads_id_only_witness :
  let own1 :=
    @Build_PaymentMethodProps unitSdk
      (mkMethod "moneris" None "api" "creditcard") (Some true) None None None in
  let own2 :=
    @Build_PaymentMethodProps unitSdk
      (mkMethod "moneris" (Some "checkoutcom") "hosted" "paypal")
      None (Some false) None None in
  mapped (mkContext "moneris") own1 = mapped (mkContext "moneris") own2.
Proof.
  cbv zeta.
  apply (@mapToWithCheckoutPaymentMethodProps_reads_id_only unitSdk).
  reflexivity.
Defined.

Lemma transform_pattern_matches_script_paths_witness :
  JestTransform.test (JestTransform.codeUnits "src/app/Payment.spec.tsx")
  = true.
Proof.
  refine (proj2 (JestTransformFacts.transform_pattern_matches_script_paths _) _).
  exists (JestTransform.codeUnits "src/app/Payment.spec").
  exists (JestTransform.codeUnits "tsx").
  split; [reflexivity|].
  split; [discriminate|].
  split; [repeat constructor | cbn; tauto].
Defined.

End MoreExamples.
